(** * I/O context isolation decorator (phpsploit)

    A shallow embedding of [isolate_io_context_decorator.py]: the
    configuration validator [init_decorator_args] and the closure
    [wrapper] built by [isolate_io_context], followed by the properties
    of the save / override / invoke / restore protocol. *)

From stdpp Require Import base strings list gmap.

Local Open Scope string_scope.
Local Open Scope list_scope.

(** ** Python values and exceptions *)

(** The Python values that flow through the decorator: keyword values
    handed to [isolate_io_context], arguments and results of the target,
    and the objects held by the process-wide attributes.  [PyObj] is an
    object known by its identity only (a stream, a completer function);
    [PyIdentityLambda] is the function object built by [(lambda x: x)]. *)
Inductive pyval : Type :=
| PyNone
| PyBool (b : bool)
| PyInt (z : Z)
| PyStr (s : string)
| PyObj (id : nat)
| PyIdentityLambda.

(** The text of an exception, kept as the format string that built it
    together with the format's arguments:
    - ["invalid io entity: %r" % key]
    - ["%s=%r: boolean expected" % (key, value)]
    - ["all IO_ENTITIES must be explicitly provided"]
    and any other text for exceptions raised by target functions. *)
Inductive message : Type :=
| Msg_invalid_io_entity (key : string)
| Msg_boolean_expected (key : string) (value : pyval)
| Msg_all_entities_required
| Msg_text (s : string).

Inductive exn : Type :=
| TypeError (m : message)
| ValueError (m : message)
| KeyError (key : string)
| UnboundLocalError (name : string)
| OtherError (cls : string) (m : message).

(** Outcome of a Python call: a value, or a raised exception. *)
Inductive result (A : Type) : Type :=
| Ok (a : A)
| Raise (e : exn).

Arguments Ok {A} a.
Arguments Raise {A} e.

(** The three failures of the validator under the names the
    specification gives them.  The first two are both [TypeError] in the
    source and differ by their text. *)
Definition InvalidEntityError (key : string) : exn :=
  TypeError (Msg_invalid_io_entity key).
Definition InvalidValueError (key : string) (value : pyval) : exn :=
  TypeError (Msg_boolean_expected key value).
Definition IncompleteConfigurationError : exn :=
  ValueError Msg_all_entities_required.

(** [isinstance(value, bool)]: [bool] cannot be subclassed, so the test
    holds for [True] and [False] only (not for the integers 0 and 1). *)
Definition isinstance_bool (value : pyval) : option bool :=
  match value with
  | PyBool b => Some b
  | _ => None
  end.

(** ** Configuration validation *)

Module Validator.

(** [IO_ENTITIES = ["readline", "stdout"]] *)
Definition IO_ENTITIES : list string := ["readline"; "stdout"].

(** [dict.fromkeys(keys, value)] *)
Definition dict_fromkeys (keys : list string) (value : bool)
  : gmap string bool :=
  foldl (fun d key => <[key := value]> d) ∅ keys.

(** The body of [for key, value in kwargs.items()]: the entries are
    visited in the dict's (insertion) order and the first offending
    entry raises; [arguments] is the dict filled so far. *)
Fixpoint fill_arguments (items : list (string * pyval))
    (arguments : gmap string bool) : result (gmap string bool) :=
  match items with
  | [] => Ok arguments
  | (key, value) :: items' =>
      if negb (bool_decide (key ∈ IO_ENTITIES)) then
        Raise (TypeError (Msg_invalid_io_entity key))
      else
        match isinstance_bool value with
        | None => Raise (TypeError (Msg_boolean_expected key value))
        | Some b => fill_arguments items' (<[key := b]> arguments)
        end
  end.

(** [init_decorator_args(kwargs)]; [kwargs] is the keyword dict as the
    list of its items in iteration order. *)
Definition init_decorator_args (kwargs : list (string * pyval))
  : result (gmap string bool) :=
  match kwargs with
  | [] => Ok (dict_fromkeys IO_ENTITIES true)
  | _ :: _ =>
      match fill_arguments kwargs ∅ with
      | Raise e => Raise e
      | Ok arguments =>
          if bool_decide (dom arguments ≠ list_to_set IO_ENTITIES) then
            Raise (ValueError Msg_all_entities_required)
          else Ok arguments
      end
  end.

(** A keyword dict has pairwise distinct keys. *)
Definition well_formed_kwargs (kwargs : list (string * pyval)) : Prop :=
  NoDup kwargs.*1.

End Validator.

Import Validator.

(** ** Process-wide state and the effects of the wrapper *)

Module IO.

(** The process-wide attributes the wrapper touches.
    [readline_importable] tells whether [import readline] succeeds;
    [readline_completer] is what [readline.get_completer()] returns, the
    completion hook of the line editor (it is reached through the module,
    so it matters only where the module imports);
    [sys_stdout] and [sys___stdout__] are the two attributes of [sys]. *)
Record World : Type := mkWorld {
  readline_importable : bool;
  readline_completer : pyval;
  sys_stdout : pyval;
  sys___stdout__ : pyval
}.

Definition with_completer (v : pyval) (w : World) : World :=
  mkWorld (readline_importable w) v (sys_stdout w) (sys___stdout__ w).

Definition with_stdout (v : pyval) (w : World) : World :=
  mkWorld (readline_importable w) (readline_completer w) v (sys___stdout__ w).

(** What the wrapper does to the world, in the order it does it. *)
Inductive event : Type :=
| EvImportReadline (ok : bool)
| EvGetCompleter
| EvSetCompleter (v : pyval)
| EvReadStdout
| EvReadDunderStdout
| EvWriteStdout (v : pyval)
| EvCall (args : list pyval) (kwargs : list (string * pyval)).

(** The state a call of [wrapper] runs in: the world, the dict
    [decorator_args] captured by the closure (one dict, shared by all
    the calls), and the log of the wrapper's actions. *)
Record State : Type := mkState {
  world : World;
  decorator_args : gmap string bool;
  trace : list event
}.

Definition M (A : Type) : Type := State -> result A * State.

#[export] Instance M_ret : MRet M := fun A a st => (Ok a, st).

#[export] Instance M_bind : MBind M := fun A B f m st =>
  match m st with
  | (Ok a, st') => f a st'
  | (Raise e, st') => (Raise e, st')
  end.

Definition raise {A : Type} (e : exn) : M A := fun st => (Raise e, st).

(** [try: body / except: handler] with a bare [except]. *)
Definition try_except {A : Type} (body handler : M A) : M A := fun st =>
  match body st with
  | (Ok a, st') => (Ok a, st')
  | (Raise _, st') => handler st'
  end.

(** [try: body / finally: cleanup]: the cleanup runs on both exits; the
    outcome of the body stands unless the cleanup itself raises. *)
Definition try_finally {A : Type} (body : M A) (cleanup : M unit) : M A :=
  fun st =>
    match body st with
    | (r, st') =>
        match cleanup st' with
        | (Ok _, st'') => (r, st'')
        | (Raise e, st'') => (Raise e, st'')
        end
    end.

Definition emit (ev : event) : M unit := fun st =>
  (Ok tt, mkState (world st) (decorator_args st) (trace st ++ [ev])).

Definition modify_world (f : World -> World) : M unit := fun st =>
  (Ok tt, mkState (f (world st)) (decorator_args st) (trace st)).

Definition read_world {A : Type} (f : World -> A) : M A := fun st =>
  (Ok (f (world st)), st).

(** [decorator_args[key]] *)
Definition getitem (key : string) : M bool := fun st =>
  match decorator_args st !! key with
  | Some b => (Ok b, st)
  | None => (Raise (KeyError key), st)
  end.

(** [decorator_args[key] = value] *)
Definition setitem (key : string) (value : bool) : M unit := fun st =>
  (Ok tt, mkState (world st) (<[key := value]> (decorator_args st)) (trace st)).

(** [import readline] *)
Definition import_readline : M unit :=
  ok ← read_world readline_importable;
  emit (EvImportReadline ok);;
  if (ok : bool) then mret tt
  else raise (OtherError "ModuleNotFoundError" (Msg_text "No module named 'readline'")).

(** [readline.get_completer()] *)
Definition get_completer : M pyval :=
  emit EvGetCompleter;; read_world readline_completer.

(** [readline.set_completer(v)] *)
Definition set_completer (v : pyval) : M unit :=
  emit (EvSetCompleter v);; modify_world (with_completer v).

(** reading [sys.stdout] *)
Definition get_stdout : M pyval :=
  emit EvReadStdout;; read_world sys_stdout.

(** reading [sys.__stdout__] *)
Definition get___stdout__ : M pyval :=
  emit EvReadDunderStdout;; read_world sys___stdout__.

(** [sys.stdout = v] *)
Definition set_stdout (v : pyval) : M unit :=
  emit (EvWriteStdout v);; modify_world (with_stdout v).

(** A target function: it receives the positional and the keyword
    arguments, runs in the world, may change every attribute of it, and
    returns or raises.  The dict captured by the closure is a free
    variable of [wrapper] alone and is out of the target's reach. *)
Definition callable : Type :=
  list pyval -> list (string * pyval) -> World -> result pyval * World.

(** the call of [function] on [args] and [kwargs] *)
Definition call (function : callable) (args : list pyval)
    (kwargs : list (string * pyval)) : M pyval := fun st =>
  match function args kwargs (world st) with
  | (r, w') =>
      (r, mkState w' (decorator_args st) (trace st ++ [EvCall args kwargs]))
  end.

(** Reading a local variable that is bound only on some paths. *)
Definition local {A : Type} (name : string) (v : option A) : M A :=
  match v with
  | Some a => mret a
  | None => raise (UnboundLocalError name)
  end.

End IO.

Import IO.

(** ** The decorator *)

Module Decorator.

(** The closure [wrapper] for the target [function];
    the locals [readline], [old_readline_completer] and [old_stdout] are
    bound only when their guards held. *)
Definition wrapper (function : callable) (args : list pyval)
    (kwargs : list (string * pyval)) : M pyval :=
  (* if unavailable, disable readline backup silently *)
  flag ← getitem "readline";
  readline ← (if (flag : bool) then
                try_except (import_readline;; mret (Some tt))
                           (setitem "readline" false;; mret None)
              else mret None);
  (* backup I/O Entities *)
  flag ← getitem "readline";
  old_readline_completer ←
    (if (flag : bool) then
       local "readline" readline;;
       old ← get_completer;
       set_completer PyIdentityLambda;;
       mret (Some old)
     else mret None);
  flag ← getitem "stdout";
  old_stdout ←
    (if (flag : bool) then
       old ← get_stdout;
       default ← get___stdout__;
       set_stdout default;;
       mret (Some old)
     else mret None);
  (* execute function with fresh context *)
  retval ← try_finally (call function args kwargs)
    ((* restore I/O Entities *)
     flag ← getitem "readline";
     (if (flag : bool) then
        local "readline" readline;;
        old ← local "old_readline_completer" old_readline_completer;
        set_completer old
      else mret tt);;
     flag ← getitem "stdout";
     (if (flag : bool) then
        old ← local "old_stdout" old_stdout;
        set_stdout old
      else mret tt));
  mret retval.

(** [isolate_io_context], called with the keywords [decorator_kwargs]:
    validation runs first and its failure is the failure of the call;
    otherwise the result is the decorator together with the dict its
    closures capture. *)
Definition isolate_io_context (decorator_kwargs : list (string * pyval))
  : result (gmap string bool
            * (callable -> list pyval -> list (string * pyval) -> M pyval)) :=
  match init_decorator_args decorator_kwargs with
  | Raise e => Raise e
  | Ok decorator_args => Ok (decorator_args, wrapper)
  end.

End Decorator.

Import Decorator.

(** ** Vocabulary of the statements *)

Module Protocol.

(** An entry of the keyword dict that passes both tests of the loop. *)
Definition valid_entry (item : string * pyval) : bool :=
  bool_decide (item.1 ∈ IO_ENTITIES) && bool_decide (is_Some (isinstance_bool item.2)).

(** Truth of [decorator_args[key]] in a dict that holds [key]. *)
Definition enabled (cfg : gmap string bool) (key : string) : bool :=
  bool_decide (cfg !! key = Some true).

(** A target that runs [function] and then installs a completer and an
    output stream of its own before it returns or raises. *)
Definition then_reassign (function : callable)
    (new_completer new_stdout : pyval) : callable := fun args kwargs w =>
  match function args kwargs w with
  | (r, w') => (r, with_stdout new_stdout (with_completer new_completer w'))
  end.

(** Whether the completer is saved and overridden in a call: the
    [readline] entry holds and [import readline] succeeds. *)
Definition readline_isolated (readline_flag : bool) (w : World) : bool :=
  readline_flag && readline_importable w.

(** The world in which the target runs. *)
Definition isolated_world (readline_flag stdout_flag : bool) (w : World)
  : World :=
  let w1 := if readline_isolated readline_flag w
            then with_completer PyIdentityLambda w else w in
  if stdout_flag then with_stdout (sys___stdout__ w1) w1 else w1.

(** The world after the [finally] block; [w] is the world before the
    call and [w2] the world the target left. *)
Definition restored_world (readline_flag stdout_flag : bool) (w w2 : World)
  : World :=
  let w3 := if readline_isolated readline_flag w
            then with_completer (readline_completer w) w2 else w2 in
  if stdout_flag then with_stdout (sys_stdout w) w3 else w3.

(** The dict [decorator_args] after a call that started with [cfg]. *)
Definition args_after_call (readline_flag : bool) (w : World)
    (cfg : gmap string bool) : gmap string bool :=
  if readline_flag && negb (readline_importable w)
  then <["readline" := false]> cfg else cfg.

(** The wrapper's actions before and after the call of the target. *)
Definition backup_events (readline_flag stdout_flag : bool) (w : World)
  : list event :=
  (if readline_flag then [EvImportReadline (readline_importable w)] else [])
  ++ (if readline_isolated readline_flag w
      then [EvGetCompleter; EvSetCompleter PyIdentityLambda] else [])
  ++ (if stdout_flag
      then [EvReadStdout; EvReadDunderStdout; EvWriteStdout (sys___stdout__ w)]
      else []).

Definition restore_events (readline_flag stdout_flag : bool) (w : World)
  : list event :=
  (if readline_isolated readline_flag w
   then [EvSetCompleter (readline_completer w)] else [])
  ++ (if stdout_flag then [EvWriteStdout (sys_stdout w)] else []).

Definition is_call (ev : event) : bool :=
  match ev with EvCall _ _ => true | _ => false end.

(** Actions on the line editor: the import and the completer accesses. *)
Definition on_readline (ev : event) : bool :=
  match ev with
  | EvImportReadline _ | EvGetCompleter | EvSetCompleter _ => true
  | _ => false
  end.

(** Accesses to the completion hook only. *)
Definition on_completer (ev : event) : bool :=
  match ev with
  | EvGetCompleter | EvSetCompleter _ => true
  | _ => false
  end.

(** Accesses to the output stream: [sys.stdout] and the default stream
    [sys.__stdout__] that replaces it. *)
Definition on_stdout (ev : event) : bool :=
  match ev with
  | EvReadStdout | EvReadDunderStdout | EvWriteStdout _ => true
  | _ => false
  end.

Fixpoint count_events (p : event -> bool) (evs : list event) : nat :=
  match evs with
  | [] => 0
  | ev :: evs' => (if p ev then 1 else 0) + count_events p evs'
  end.

End Protocol.

Import Protocol.

(** ** Sample inputs *)

Module Samples.

(** The application's stdout wrapper is object 1, the default stream is
    object 0, the application's completer is object 2. *)
Definition world_with_readline : World :=
  mkWorld true (PyObj 2) (PyObj 1) (PyObj 0).

Definition world_without_readline : World :=
  mkWorld false PyNone (PyObj 1) (PyObj 0).

(** A target that installs its own completer and stream and returns. *)
Definition reconfigure : callable := fun _ _ w =>
  (Ok (PyInt 3), with_stdout (PyObj 7) (with_completer (PyObj 8) w)).

(** A target that does the same and then raises. *)
Definition reconfigure_and_fail : callable := fun _ _ w =>
  (Raise (OtherError "RuntimeError" (Msg_text "boom")),
   with_stdout (PyObj 7) (with_completer (PyObj 8) w)).

(** A target that returns its first positional argument. *)
Definition first_arg : callable := fun args _ w =>
  (Ok (List.hd PyNone args), w).

Definition all_enabled : gmap string bool :=
  <["stdout" := true]> (<["readline" := true]> ∅).

Definition only_stdout : gmap string bool :=
  <["stdout" := true]> (<["readline" := false]> ∅).

Definition only_readline : gmap string bool :=
  <["stdout" := false]> (<["readline" := true]> ∅).

Definition kw (readline_flag stdout_flag : bool) : list (string * pyval) :=
  [("readline", PyBool readline_flag); ("stdout", PyBool stdout_flag)].

End Samples.

(** ** Wrapped callables as targets, and repeated calls *)

Module Composition.

(** A decorated function used as the target of another decorator: one
    call of the closure [wrapper] whose dict is [cfg].  What that call
    writes to its own dict and log stays with that closure; the caller
    sees its outcome and the world it leaves. *)
Definition wrapped (function : callable) (cfg : gmap string bool)
  : callable := fun args kwargs w =>
  match wrapper function args kwargs (mkState w cfg []) with
  | (r, st) => (r, world st)
  end.

(** One call of a wrapped callable: the target, its arguments, and the
    world at the moment of the call (any code may run between two calls,
    so each call comes with its own world). *)
Record invocation : Type := mkInvocation {
  inv_function : callable;
  inv_args : list pyval;
  inv_kwargs : list (string * pyval);
  inv_world : World
}.

(** The dict held by the closure after the calls, made in order. *)
Definition dict_after (cfg : gmap string bool) (calls : list invocation)
  : gmap string bool :=
  foldl (fun d c =>
           decorator_args
             (snd (wrapper (inv_function c) (inv_args c) (inv_kwargs c)
                     (mkState (inv_world c) d []))))
        cfg calls.

(** A target that returns the output stream and leaves the world alone. *)
Definition report_stdout : callable := fun _ _ w => (Ok (sys_stdout w), w).

End Composition.

Import Composition.

(** * Properties *)

(** ** The validator *)

Section ValidatorFacts.

Implicit Types (items kwargs : list (string * pyval)).
Implicit Types (arguments cfg : gmap string bool).

Lemma valid_entry_spec key value :
  valid_entry (key, value) = true ↔
  key ∈ IO_ENTITIES ∧ ∃ b, value = PyBool b.
Proof.
  unfold valid_entry; simpl. rewrite andb_true_iff, !bool_decide_eq_true.
  split; intros [Hk Hv]; split; auto.
  - destruct Hv as [b Hb]. destruct value; simplify_eq/=. eauto.
  - destruct Hv as [b ->]. simpl. eauto.
Qed.

(** A run of the loop over valid entries fills the dict with their keys. *)
Lemma fill_arguments_valid items arguments :
  forallb valid_entry items = true →
  ∃ arguments', fill_arguments items arguments = Ok arguments'
    ∧ dom arguments' = dom arguments ∪ list_to_set items.*1.
Proof.
  revert arguments. induction items as [|[key value] items IH]; intros arguments Hall.
  - exists arguments. split; [done|]. simpl. by rewrite union_empty_r_L.
  - simpl in Hall. apply andb_true_iff in Hall as [Hv Hall].
    apply valid_entry_spec in Hv as [Hk [b ->]].
    simpl. rewrite bool_decide_eq_true_2 by done. simpl.
    destruct (IH (<[key := b]> arguments) Hall) as (a' & Hrun & Hdom).
    exists a'. split; [done|]. rewrite Hdom, dom_insert_L. simpl.
    by rewrite (union_comm_L {[key]} (dom arguments)), union_assoc_L.
Qed.

(** The loop stops at the first entry that fails a test. *)
Lemma fill_arguments_first_offender pre key value post arguments :
  forallb valid_entry pre = true →
  valid_entry (key, value) = false →
  fill_arguments (pre ++ (key, value) :: post) arguments =
    if bool_decide (key ∈ IO_ENTITIES)
    then Raise (InvalidValueError key value)
    else Raise (InvalidEntityError key).
Proof.
  revert arguments. induction pre as [|[k v] pre IH]; intros arguments Hpre Hbad.
  - simpl. unfold valid_entry in Hbad; simpl in Hbad.
    destruct (bool_decide (key ∈ IO_ENTITIES)); simpl in *; [|done].
    destruct value; simpl in *; try done.
  - simpl in Hpre. apply andb_true_iff in Hpre as [Hv Hpre].
    apply valid_entry_spec in Hv as [Hk [b ->]].
    simpl. rewrite bool_decide_eq_true_2 by done. simpl. by apply IH.
Qed.

(** Every list of entries is all valid or splits at its first offender. *)
Lemma first_offender_split items :
  forallb valid_entry items = true ∨
  ∃ pre key value post,
    items = pre ++ (key, value) :: post
    ∧ forallb valid_entry pre = true
    ∧ valid_entry (key, value) = false.
Proof.
  induction items as [|[k v] items IH]; [by left|].
  destruct (valid_entry (k, v)) eqn:Hkv.
  - destruct IH as [IH | (pre & key & value & post & -> & Hpre & Hbad)].
    + left. simpl. by rewrite Hkv.
    + right. exists ((k, v) :: pre), key, value, post.
      split; [done|]. split; [|done]. simpl. by rewrite Hkv.
  - right. by exists [], k, v, items.
Qed.

Lemma init_decorator_args_first_offender pre key value post :
  forallb valid_entry pre = true →
  valid_entry (key, value) = false →
  init_decorator_args (pre ++ (key, value) :: post) =
    if bool_decide (key ∈ IO_ENTITIES)
    then Raise (InvalidValueError key value)
    else Raise (InvalidEntityError key).
Proof.
  intros Hpre Hbad. unfold init_decorator_args.
  rewrite (fill_arguments_first_offender _ _ _ _ _ Hpre Hbad).
  destruct (pre ++ (key, value) :: post) eqn:E.
  - by destruct pre.
  - by destruct (bool_decide (key ∈ IO_ENTITIES)).
Qed.

(** A validated configuration holds exactly the two entities. *)
Lemma init_decorator_args_dom kwargs cfg :
  init_decorator_args kwargs = Ok cfg →
  dom cfg = list_to_set IO_ENTITIES.
Proof.
  unfold init_decorator_args. destruct kwargs as [|item kwargs].
  - intros [= <-]. vm_compute. reflexivity.
  - destruct (fill_arguments _ _) as [arguments|e]; [|done].
    case_bool_decide as Hdom; [done|]. intros [= <-].
    by destruct (decide (dom arguments = list_to_set IO_ENTITIES)).
Qed.

Lemma init_decorator_args_lookup kwargs cfg :
  init_decorator_args kwargs = Ok cfg →
  ∃ readline_flag stdout_flag,
    cfg !! "readline" = Some readline_flag ∧ cfg !! "stdout" = Some stdout_flag.
Proof.
  intros Hdom%init_decorator_args_dom.
  assert (Hr : "readline" ∈ dom cfg) by (rewrite Hdom; set_solver).
  assert (Hs : "stdout" ∈ dom cfg) by (rewrite Hdom; set_solver).
  apply elem_of_dom in Hr as [r Hr]. apply elem_of_dom in Hs as [s Hs].
  by exists r, s.
Qed.

End ValidatorFacts.

(** ** The wrapper, run once *)

Section WrapperFacts.

Variable function : callable.
Variables (args : list pyval) (kwargs : list (string * pyval)).

Implicit Types (w : World) (cfg : gmap string bool) (tr : list event).

(** One call of the wrapper, in closed form, for a dict that holds both
    entities. *)
Lemma wrapper_run cfg readline_flag stdout_flag w tr :
  cfg !! "readline" = Some readline_flag →
  cfg !! "stdout" = Some stdout_flag →
  wrapper function args kwargs (mkState w cfg tr) =
    (fst (function args kwargs (isolated_world readline_flag stdout_flag w)),
     mkState
       (restored_world readline_flag stdout_flag w
          (snd (function args kwargs (isolated_world readline_flag stdout_flag w))))
       (args_after_call readline_flag w cfg)
       (tr ++ backup_events readline_flag stdout_flag w
           ++ [EvCall args kwargs]
           ++ restore_events readline_flag stdout_flag w)).
Proof.
  intros Hr Hs.
  unfold wrapper, isolated_world, restored_world, args_after_call,
    backup_events, restore_events, readline_isolated.
  destruct w as [avail c o d].
  destruct readline_flag, stdout_flag, avail; simpl.
  all: unfold mbind, M_bind, mret, M_ret, getitem, try_except, try_finally,
         import_readline, get_completer, set_completer, get_stdout,
         get___stdout__, set_stdout, call, local, emit, read_world,
         modify_world, setitem, raise; simpl.
  all: repeat first
         [ rewrite Hr | rewrite Hs | rewrite lookup_insert_eq
         | rewrite lookup_insert_ne by done
         | progress simpl
         | match goal with
           | |- context [let (_, _) := function args kwargs ?x in _] =>
               destruct (function args kwargs x) as [out w2]
           end ].
  all: rewrite <- ?app_assoc; by destruct out.
Qed.

Lemma enabled_lookup cfg key (b : bool) :
  cfg !! key = Some b → enabled cfg key = b.
Proof. unfold enabled. intros ->. by destruct b. Qed.

(** The same for a validated configuration, its flags read off the dict. *)
Lemma wrapper_run_validated kws cfg w tr :
  init_decorator_args kws = Ok cfg →
  wrapper function args kwargs (mkState w cfg tr) =
    (fst (function args kwargs
            (isolated_world (enabled cfg "readline") (enabled cfg "stdout") w)),
     mkState
       (restored_world (enabled cfg "readline") (enabled cfg "stdout") w
          (snd (function args kwargs
                  (isolated_world (enabled cfg "readline") (enabled cfg "stdout") w))))
       (args_after_call (enabled cfg "readline") w cfg)
       (tr ++ backup_events (enabled cfg "readline") (enabled cfg "stdout") w
           ++ [EvCall args kwargs]
           ++ restore_events (enabled cfg "readline") (enabled cfg "stdout") w)).
Proof.
  intros (r & s & Hr & Hs)%init_decorator_args_lookup.
  rewrite (enabled_lookup _ _ _ Hr), (enabled_lookup _ _ _ Hs).
  by apply wrapper_run.
Qed.

End WrapperFacts.

(** The two attributes are independent fields of the world. *)
Lemma restored_world_stdout r w w2 :
  sys_stdout (restored_world r true w w2) = sys_stdout w.
Proof. reflexivity. Qed.

Lemma restored_world_stdout_off r w w2 :
  sys_stdout (restored_world r false w w2) = sys_stdout w2.
Proof. unfold restored_world. by destruct (readline_isolated r w). Qed.

Lemma restored_world_completer s w w2 :
  readline_importable w = true →
  readline_completer (restored_world true s w w2) = readline_completer w.
Proof.
  intros Hav. unfold restored_world, readline_isolated. rewrite Hav. by destruct s.
Qed.

Lemma restored_world_completer_off r s w w2 :
  readline_isolated r w = false →
  readline_completer (restored_world r s w w2) = readline_completer w2.
Proof. intros Hoff. unfold restored_world. rewrite Hoff. by destruct s. Qed.

Lemma isolated_world_stdout_off r w :
  sys_stdout (isolated_world r false w) = sys_stdout w.
Proof. unfold isolated_world. by destruct (readline_isolated r w). Qed.

Lemma isolated_world_completer_off r s w :
  readline_isolated r w = false →
  readline_completer (isolated_world r s w) = readline_completer w.
Proof. intros Hoff. unfold isolated_world. rewrite Hoff. by destruct s. Qed.

Lemma count_events_app p evs1 evs2 :
  count_events p (evs1 ++ evs2) = count_events p evs1 + count_events p evs2.
Proof. induction evs1 as [|ev evs1 IH]; simpl; [done|]. rewrite IH. lia. Qed.


(** ** Claims about the validator *)

(** C7. For the empty keyword dict the validation succeeds and the
    configuration it returns maps every recognised entity to [True]: it is
    the dict with [readline] and [stdout] both true, and nothing else. *)
Theorem empty_configuration_enables_all :
  init_decorator_args [] = Ok {[ "readline" := true; "stdout" := true ]}
  ∧ Forall (fun entity =>
              ({[ "readline" := true; "stdout" := true ]} : gmap string bool)
                !! entity = Some true) IO_ENTITIES
  ∧ dom ({[ "readline" := true; "stdout" := true ]} : gmap string bool)
    = list_to_set IO_ENTITIES.
Proof.
  split; [reflexivity|]. split.
  - repeat constructor.
  - vm_compute. reflexivity.
Qed.

(** C5. A non-empty keyword dict whose keys are all recognised and whose
    values are all booleans, but which leaves an entity out, is rejected
    with the [ValueError] of the completeness test; the failure is that of
    [isolate_io_context] itself, so no decorator and no wrapper exist. *)
Theorem partial_configuration_rejected
    (kwargs : list (string * pyval)) (entity : string) :
  kwargs ≠ [] →
  Forall (fun item => item.1 ∈ IO_ENTITIES ∧ ∃ b, item.2 = PyBool b) kwargs →
  entity ∈ IO_ENTITIES →
  entity ∉ kwargs.*1 →
  init_decorator_args kwargs = Raise IncompleteConfigurationError
  ∧ isolate_io_context kwargs = Raise IncompleteConfigurationError.
Proof.
  intros Hne Hall Hent Hmiss.
  assert (Hvalid : forallb valid_entry kwargs = true).
  { apply forallb_forall. intros [k v] Hin.
    apply valid_entry_spec. rewrite Forall_forall in Hall.
    apply (Hall (k, v)). by apply list_elem_of_In. }
  destruct (fill_arguments_valid kwargs ∅ Hvalid) as (arguments & Hrun & Hdom).
  assert (Hinit : init_decorator_args kwargs = Raise IncompleteConfigurationError).
  { unfold init_decorator_args. destruct kwargs as [|item kwargs']; [done|].
    rewrite Hrun. rewrite bool_decide_eq_true_2; [done|].
    intros Heq. apply Hmiss.
    assert (Hin : entity ∈ dom arguments).
    { rewrite Heq. by apply elem_of_list_to_set. }
    rewrite Hdom, dom_empty_L, union_empty_l_L in Hin.
    by apply elem_of_list_to_set in Hin. }
  split; [done|]. unfold isolate_io_context. by rewrite Hinit.
Qed.

Lemma partial_configuration_rejected_witness :
  init_decorator_args [("readline", PyBool false)]
    = Raise IncompleteConfigurationError
  ∧ isolate_io_context [("readline", PyBool false)]
    = Raise IncompleteConfigurationError.
Proof.
  apply (partial_configuration_rejected [("readline", PyBool false)] "stdout").
  - discriminate.
  - constructor; [split; [apply list_elem_of_here | by exists false] | constructor].
  - vm_compute. apply list_elem_of_further, list_elem_of_here.
  - simpl. intros Hin. apply list_elem_of_In in Hin. simpl in Hin.
    destruct Hin as [Heq|[]]. discriminate Heq.
Defined.

(** C4, as the code has it. A keyword dict that holds an unrecognised key
    is always rejected, by the first entry (in the dict's order) that fails
    a test of the loop: when that entry has an unrecognised key the failure
    is the invalid-entity [TypeError] naming that key, whatever the entries
    after it are; when a recognised key with a non-boolean value comes
    before every unrecognised key, the failure is the boolean-expected
    [TypeError] of that entry instead. *)
Theorem unrecognized_key_rejected (kwargs : list (string * pyval)) :
  (∃ key, (key ∈ kwargs.*1) ∧ key ∉ IO_ENTITIES) →
  ∃ pre key value post,
    kwargs = pre ++ (key, value) :: post
    ∧ Forall (fun item => item.1 ∈ IO_ENTITIES ∧ ∃ b, item.2 = PyBool b) pre
    ∧ (((key ∉ IO_ENTITIES)
        ∧ init_decorator_args kwargs = Raise (InvalidEntityError key))
       ∨ (key ∈ IO_ENTITIES ∧ isinstance_bool value = None
          ∧ init_decorator_args kwargs = Raise (InvalidValueError key value))).
Proof.
  intros (bad & Hin & Hbad).
  destruct (first_offender_split kwargs)
    as [Hall | (pre & key & value & post & -> & Hpre & Hoff)].
  - exfalso. apply Hbad.
    apply list_elem_of_fmap in Hin as ([k v] & -> & Hin).
    rewrite forallb_forall in Hall.
    apply list_elem_of_In, Hall, valid_entry_spec in Hin. by destruct Hin.
  - exists pre, key, value, post. split; [done|]. split.
    + apply Forall_forall. intros [k v] Hk.
      apply valid_entry_spec. rewrite forallb_forall in Hpre.
      by apply Hpre, list_elem_of_In.
    + rewrite (init_decorator_args_first_offender _ _ _ _ Hpre Hoff).
      case_bool_decide as Hkey.
      * right. split; [done|]. split; [|done].
        unfold valid_entry in Hoff. simpl in Hoff.
        rewrite bool_decide_eq_true_2 in Hoff by done. simpl in Hoff.
        apply bool_decide_eq_false in Hoff.
        destruct (isinstance_bool value); [|done]. exfalso. eauto.
      * by left.
Qed.

(** C6, as the code has it. A keyword dict that maps a recognised key to a
    value that is not a boolean is always rejected, by the first entry (in
    the dict's order) that fails a test of the loop: when that entry has a
    recognised key the failure is the boolean-expected [TypeError] naming
    the key and the value; when an unrecognised key comes before every such
    entry, the failure is the invalid-entity [TypeError] of that key. *)
Theorem non_boolean_value_rejected (kwargs : list (string * pyval)) :
  (∃ key value, ((key, value) ∈ kwargs) ∧ key ∈ IO_ENTITIES
                ∧ isinstance_bool value = None) →
  ∃ pre key value post,
    kwargs = pre ++ (key, value) :: post
    ∧ Forall (fun item => item.1 ∈ IO_ENTITIES ∧ ∃ b, item.2 = PyBool b) pre
    ∧ ((key ∈ IO_ENTITIES ∧ isinstance_bool value = None
        ∧ init_decorator_args kwargs = Raise (InvalidValueError key value))
       ∨ ((key ∉ IO_ENTITIES)
          ∧ init_decorator_args kwargs = Raise (InvalidEntityError key))).
Proof.
  intros (k0 & v0 & Hin & Hk0 & Hv0).
  destruct (first_offender_split kwargs)
    as [Hall | (pre & key & value & post & -> & Hpre & Hoff)].
  - exfalso. rewrite forallb_forall in Hall.
    apply list_elem_of_In, Hall, valid_entry_spec in Hin.
    destruct Hin as [_ [b ->]]. discriminate Hv0.
  - exists pre, key, value, post. split; [done|]. split.
    + apply Forall_forall. intros [k v] Hk.
      apply valid_entry_spec. rewrite forallb_forall in Hpre.
      by apply Hpre, list_elem_of_In.
    + rewrite (init_decorator_args_first_offender _ _ _ _ Hpre Hoff).
      case_bool_decide as Hkey.
      * left. split; [done|]. split; [|done].
        unfold valid_entry in Hoff. simpl in Hoff.
        rewrite bool_decide_eq_true_2 in Hoff by done. simpl in Hoff.
        apply bool_decide_eq_false in Hoff.
        destruct (isinstance_bool value); [|done]. exfalso. eauto.
      * by right.
Qed.

Lemma unrecognized_key_rejected_witness :
  ∃ pre key value post,
    [("stdout", PyBool true); ("foo", PyInt 1); ("readline", PyStr "yes")]
      = pre ++ (key, value) :: post
    ∧ Forall (fun item => item.1 ∈ IO_ENTITIES ∧ ∃ b, item.2 = PyBool b) pre
    ∧ (((key ∉ IO_ENTITIES)
        ∧ init_decorator_args
            [("stdout", PyBool true); ("foo", PyInt 1); ("readline", PyStr "yes")]
          = Raise (InvalidEntityError key))
       ∨ (key ∈ IO_ENTITIES ∧ isinstance_bool value = None
          ∧ init_decorator_args
              [("stdout", PyBool true); ("foo", PyInt 1); ("readline", PyStr "yes")]
            = Raise (InvalidValueError key value))).
Proof.
  apply (unrecognized_key_rejected
           [("stdout", PyBool true); ("foo", PyInt 1); ("readline", PyStr "yes")]).
  exists "foo". split; simpl.
  - apply list_elem_of_further, list_elem_of_here.
  - compute_done.
Defined.

(** The entry [readline="yes"] comes first and decides the failure, although
    the dict holds the unrecognised key [foo]. *)
Lemma unrecognized_key_counterexample :
  well_formed_kwargs [("readline", PyStr "yes"); ("foo", PyBool true)]
  ∧ "foo" ∈ [("readline", PyStr "yes"); ("foo", PyBool true)].*1
  ∧ ("foo" ∉ IO_ENTITIES)
  ∧ init_decorator_args [("readline", PyStr "yes"); ("foo", PyBool true)]
    = Raise (InvalidValueError "readline" (PyStr "yes"))
  ∧ ¬ ∃ key, init_decorator_args [("readline", PyStr "yes"); ("foo", PyBool true)]
             = Raise (InvalidEntityError key).
Proof.
  split; [unfold well_formed_kwargs; compute_done|].
  split; [compute_done|]. split; [compute_done|].
  split; [reflexivity|]. intros [key Hkey]. discriminate Hkey.
Qed.

Lemma non_boolean_value_rejected_witness :
  ∃ pre key value post,
    [("stdout", PyBool true); ("readline", PyInt 1); ("foo", PyBool true)]
      = pre ++ (key, value) :: post
    ∧ Forall (fun item => item.1 ∈ IO_ENTITIES ∧ ∃ b, item.2 = PyBool b) pre
    ∧ ((key ∈ IO_ENTITIES ∧ isinstance_bool value = None
        ∧ init_decorator_args
            [("stdout", PyBool true); ("readline", PyInt 1); ("foo", PyBool true)]
          = Raise (InvalidValueError key value))
       ∨ ((key ∉ IO_ENTITIES)
          ∧ init_decorator_args
              [("stdout", PyBool true); ("readline", PyInt 1); ("foo", PyBool true)]
            = Raise (InvalidEntityError key))).
Proof.
  apply (non_boolean_value_rejected
           [("stdout", PyBool true); ("readline", PyInt 1); ("foo", PyBool true)]).
  exists "readline", (PyInt 1). split; [|split].
  - apply list_elem_of_further, list_elem_of_here.
  - apply list_elem_of_here.
  - reflexivity.
Defined.

(** The unrecognised key [foo] comes first and decides the failure, although
    [readline] is mapped to a string. *)
Lemma non_boolean_value_counterexample :
  well_formed_kwargs [("foo", PyBool true); ("readline", PyStr "yes")]
  ∧ ("readline", PyStr "yes") ∈ [("foo", PyBool true); ("readline", PyStr "yes")]
  ∧ "readline" ∈ IO_ENTITIES
  ∧ isinstance_bool (PyStr "yes") = None
  ∧ init_decorator_args [("foo", PyBool true); ("readline", PyStr "yes")]
    = Raise (InvalidEntityError "foo")
  ∧ ¬ ∃ key value,
        init_decorator_args [("foo", PyBool true); ("readline", PyStr "yes")]
        = Raise (InvalidValueError key value).
Proof.
  split; [unfold well_formed_kwargs; compute_done|].
  split; [apply list_elem_of_further, list_elem_of_here|].
  split; [apply list_elem_of_here|].
  split; [reflexivity|]. split; [reflexivity|].
  intros (key & value & Hkv). discriminate Hkv.
Qed.

(** ** Claims about the wrapper *)

(** C1. After a call of the wrapper under a validated configuration,
    whatever the outcome [out] of the call (a value, or the exception of the
    target), every entity the call isolated holds its value from before the
    call: the completer when [readline] is enabled and the module imports,
    the output stream when [stdout] is enabled; the last actions of the
    wrapper, after the call of the target, are these restoring writes. *)
Theorem isolated_entities_restored
    (kws : list (string * pyval)) (cfg : gmap string bool)
    (function : callable) (args : list pyval) (kwargs : list (string * pyval))
    (w : World) (tr : list event) (out : result pyval) (st' : State) :
  init_decorator_args kws = Ok cfg →
  wrapper function args kwargs (mkState w cfg tr) = (out, st') →
  (cfg !! "readline" = Some true → readline_importable w = true →
     readline_completer (world st') = readline_completer w
     ∧ ∃ evs, trace st' = evs ++ EvCall args kwargs
                :: EvSetCompleter (readline_completer w)
                :: (if enabled cfg "stdout"
                    then [EvWriteStdout (sys_stdout w)] else []))
  ∧ (cfg !! "stdout" = Some true →
     sys_stdout (world st') = sys_stdout w
     ∧ ∃ evs, trace st' = evs ++ [EvWriteStdout (sys_stdout w)]
              ∧ count_events is_call evs = count_events is_call tr + 1).
Proof.
  intros Hcfg Hrun.
  rewrite (wrapper_run_validated _ _ _ _ _ _ _ Hcfg) in Hrun.
  injection Hrun as <- <-. cbn [world trace]. split.
  - intros Hr Hav. rewrite (enabled_lookup _ _ _ Hr). split.
    + by apply restored_world_completer.
    + exists (tr ++ backup_events true (enabled cfg "stdout") w).
      unfold backup_events, restore_events, readline_isolated.
      rewrite Hav. simpl. by rewrite <- !app_assoc.
  - intros Hs. rewrite (enabled_lookup _ _ _ Hs). split.
    + apply restored_world_stdout.
    + exists (tr ++ backup_events (enabled cfg "readline") true w
                 ++ [EvCall args kwargs]
                 ++ (if readline_isolated (enabled cfg "readline") w
                     then [EvSetCompleter (readline_completer w)] else [])).
      split.
      * unfold restore_events. by rewrite <- !app_assoc.
      * rewrite !count_events_app. unfold backup_events.
        destruct (enabled cfg "readline"), (readline_isolated _ w); simpl; lia.
Qed.

Lemma isolated_entities_restored_witness :
  (readline_completer
     (world (snd (wrapper Samples.reconfigure_and_fail [PyInt 1] []
                    (mkState Samples.world_with_readline Samples.all_enabled []))))
   = PyObj 2)
  ∧ (sys_stdout
       (world (snd (wrapper Samples.reconfigure_and_fail [PyInt 1] []
                      (mkState Samples.world_with_readline Samples.all_enabled []))))
     = PyObj 1).
Proof.
  destruct (isolated_entities_restored [] Samples.all_enabled
              Samples.reconfigure_and_fail [PyInt 1] []
              Samples.world_with_readline []
              (fst (wrapper Samples.reconfigure_and_fail [PyInt 1] []
                      (mkState Samples.world_with_readline Samples.all_enabled [])))
              (snd (wrapper Samples.reconfigure_and_fail [PyInt 1] []
                      (mkState Samples.world_with_readline Samples.all_enabled []))))
    as [Hr Hs].
  - reflexivity.
  - reflexivity.
  - split.
    + apply Hr; reflexivity.
    + apply Hs; reflexivity.
Defined.

(** C3. Under a validated configuration the wrapper calls the target once,
    on the arguments it received, in the world prepared by the backup step;
    the outcome of the wrapper is the outcome of that call, value or
    exception alike, and it is delivered together with the restored world
    (the restoring writes are the last actions, after the call). *)
Theorem wrapper_transparent
    (kws : list (string * pyval)) (cfg : gmap string bool)
    (function : callable) (args : list pyval) (kwargs : list (string * pyval))
    (w : World) (tr : list event) :
  init_decorator_args kws = Ok cfg →
  let readline_flag := enabled cfg "readline" in
  let stdout_flag := enabled cfg "stdout" in
  let target_run :=
    function args kwargs (isolated_world readline_flag stdout_flag w) in
  let run := wrapper function args kwargs (mkState w cfg tr) in
  fst run = fst target_run
  ∧ (∀ v, fst target_run = Ok v → fst run = Ok v)
  ∧ (∀ e, fst target_run = Raise e → fst run = Raise e)
  ∧ world (snd run) = restored_world readline_flag stdout_flag w (snd target_run)
  ∧ trace (snd run)
    = tr ++ backup_events readline_flag stdout_flag w
         ++ [EvCall args kwargs]
         ++ restore_events readline_flag stdout_flag w
  ∧ count_events is_call (backup_events readline_flag stdout_flag w) = 0
  ∧ count_events is_call (restore_events readline_flag stdout_flag w) = 0
  ∧ count_events is_call (trace (snd run)) = count_events is_call tr + 1.
Proof.
  intros Hcfg. cbv zeta.
  rewrite (wrapper_run_validated _ _ _ _ _ _ _ Hcfg). cbn [fst snd world trace].
  assert (Hb : count_events is_call
                 (backup_events (enabled cfg "readline") (enabled cfg "stdout") w) = 0).
  { unfold backup_events.
    by destruct (enabled cfg "readline"), (readline_isolated _ w),
         (enabled cfg "stdout"). }
  assert (Hr : count_events is_call
                 (restore_events (enabled cfg "readline") (enabled cfg "stdout") w) = 0).
  { unfold restore_events.
    by destruct (readline_isolated _ w), (enabled cfg "stdout"). }
  split_and!; try done.
  rewrite !count_events_app, Hb, Hr. simpl. lia.
Qed.

Lemma wrapper_transparent_witness :
  fst (wrapper Samples.first_arg [PyInt 5; PyInt 6] [("k", PyStr "v")]
         (mkState Samples.world_with_readline Samples.only_stdout []))
  = Ok (PyInt 5).
Proof.
  pose proof (wrapper_transparent (Samples.kw false true) Samples.only_stdout
                Samples.first_arg [PyInt 5; PyInt 6] [("k", PyStr "v")]
                Samples.world_with_readline [] eq_refl) as H.
  cbv zeta in H. destruct H as (_ & Hv & _).
  apply Hv. reflexivity.
Defined.

(** C8. Under a validated configuration, an entity whose entry is false is
    not touched by the wrapper: the target starts with the value the entity
    had before the call, the value after the call is the one the target
    left, and none of the wrapper's actions is an access to the entity (no
    import and no completer access for [readline]; no read or write of the
    stream attributes for [stdout]). *)
Theorem disabled_entity_untouched
    (kws : list (string * pyval)) (cfg : gmap string bool)
    (function : callable) (args : list pyval) (kwargs : list (string * pyval))
    (w : World) (tr : list event) :
  init_decorator_args kws = Ok cfg →
  let w1 := isolated_world (enabled cfg "readline") (enabled cfg "stdout") w in
  let w2 := snd (function args kwargs w1) in
  let st' := snd (wrapper function args kwargs (mkState w cfg tr)) in
  ∃ evs, trace st' = tr ++ evs
    ∧ (cfg !! "readline" = Some false →
         readline_completer w1 = readline_completer w
         ∧ readline_completer (world st') = readline_completer w2
         ∧ count_events on_readline evs = 0)
    ∧ (cfg !! "stdout" = Some false →
         sys_stdout w1 = sys_stdout w
         ∧ sys_stdout (world st') = sys_stdout w2
         ∧ count_events on_stdout evs = 0).
Proof.
  intros Hcfg. cbv zeta.
  rewrite (wrapper_run_validated _ _ _ _ _ _ _ Hcfg). cbn [fst snd world trace].
  eexists. split; [reflexivity|]. split.
  - intros Hr. rewrite (enabled_lookup _ _ _ Hr). split; [|split].
    + by apply isolated_world_completer_off.
    + by apply restored_world_completer_off.
    + unfold backup_events, restore_events, readline_isolated. cbn [andb].
      by destruct (enabled cfg "stdout").
  - intros Hs. rewrite (enabled_lookup _ _ _ Hs). split; [|split].
    + apply isolated_world_stdout_off.
    + apply restored_world_stdout_off.
    + unfold backup_events, restore_events.
      by destruct (enabled cfg "readline"), (readline_isolated _ w).
Qed.

Lemma disabled_entity_untouched_witness :
  ∃ evs,
    trace (snd (wrapper Samples.reconfigure [] []
                  (mkState Samples.world_with_readline Samples.only_readline [])))
    = [] ++ evs
    ∧ sys_stdout
        (world (snd (wrapper Samples.reconfigure [] []
                       (mkState Samples.world_with_readline Samples.only_readline []))))
      = PyObj 7
    ∧ count_events on_stdout evs = 0.
Proof.
  pose proof (disabled_entity_untouched (Samples.kw true false)
                Samples.only_readline Samples.reconfigure [] []
                Samples.world_with_readline [] eq_refl) as H.
  cbv zeta in H. destruct H as (evs & Htr & _ & Hs).
  exists evs. split; [exact Htr|].
  destruct (Hs eq_refl) as (_ & Hpost & Hcount).
  split; [exact Hpost | exact Hcount].
Defined.

(** A validated configuration is one of the four dicts over the two
    entities, so the dict stored after a call is again a validated one. *)
Lemma validated_configuration_shape kws cfg :
  init_decorator_args kws = Ok cfg →
  cfg = {[ "readline" := enabled cfg "readline"; "stdout" := enabled cfg "stdout" ]}.
Proof.
  intros Hcfg.
  destruct (init_decorator_args_lookup _ _ Hcfg) as (r & s & Hr & Hs).
  rewrite (enabled_lookup _ _ _ Hr), (enabled_lookup _ _ _ Hs).
  apply init_decorator_args_dom in Hcfg.
  apply map_eq. intros key.
  destruct (decide (key = "readline")) as [->|Hk1].
  { by rewrite Hr, lookup_insert_eq. }
  rewrite lookup_insert_ne by done.
  destruct (decide (key = "stdout")) as [->|Hk2].
  { by rewrite Hs, lookup_singleton_eq. }
  rewrite lookup_singleton_ne by done.
  apply not_elem_of_dom. rewrite Hcfg. simpl.
  rewrite !elem_of_union, !elem_of_singleton, elem_of_empty. tauto.
Qed.

Lemma stored_configuration_stays_validated
    kws cfg (function : callable) args kwargs w tr :
  init_decorator_args kws = Ok cfg →
  ∃ kws', init_decorator_args kws'
          = Ok (decorator_args (snd (wrapper function args kwargs (mkState w cfg tr)))).
Proof.
  intros Hcfg. rewrite (wrapper_run_validated _ _ _ _ _ _ _ Hcfg). cbn [snd decorator_args].
  unfold args_after_call.
  pose proof (validated_configuration_shape _ _ Hcfg) as Hshape.
  remember (enabled cfg "readline") as r eqn:Er.
  remember (enabled cfg "stdout") as s eqn:Es.
  rewrite Hshape. clear Hshape Er Es Hcfg.
  destruct r, (readline_importable w), s; cbn [andb negb];
    first [ by exists (Samples.kw true true) | by exists (Samples.kw true false)
          | by exists (Samples.kw false true) | by exists (Samples.kw false false) ].
Qed.

(** C9. Without the line-editing module, a call under the default
    configuration raises nothing of its own: its outcome is the target's.
    It acts as a call under [readline=False, stdout=True] does: same
    outcome, same final world, same stored dict, and the same actions but
    for the failed import; none of them reads or writes the completer. *)
Theorem missing_readline_acts_as_disabled
    (cfg cfg_off : gmap string bool)
    (function : callable) (args : list pyval) (kwargs : list (string * pyval))
    (w : World) (tr : list event) :
  init_decorator_args [] = Ok cfg →
  init_decorator_args [("readline", PyBool false); ("stdout", PyBool true)]
    = Ok cfg_off →
  readline_importable w = false →
  let run := wrapper function args kwargs (mkState w cfg tr) in
  let run_off := wrapper function args kwargs (mkState w cfg_off tr) in
  fst run = fst (function args kwargs (with_stdout (sys___stdout__ w) w))
  ∧ fst run = fst run_off
  ∧ world (snd run) = world (snd run_off)
  ∧ decorator_args (snd run) = decorator_args (snd run_off)
  ∧ ∃ evs, trace (snd run) = tr ++ EvImportReadline false :: evs
           ∧ trace (snd run_off) = tr ++ evs
           ∧ count_events on_completer evs = 0.
Proof.
  intros Hcfg Hoff Hav. cbv zeta.
  rewrite (wrapper_run_validated _ _ _ _ _ _ _ Hcfg).
  rewrite (wrapper_run_validated _ _ _ _ _ _ _ Hoff).
  injection Hcfg as <-. injection Hoff as <-.
  change (enabled (dict_fromkeys IO_ENTITIES true) "readline") with true.
  change (enabled (dict_fromkeys IO_ENTITIES true) "stdout") with true.
  change (enabled (<["stdout":=true]> (<["readline":=false]> ∅)) "readline") with false.
  change (enabled (<["stdout":=true]> (<["readline":=false]> ∅)) "stdout") with true.
  cbn [fst snd world trace decorator_args].
  unfold isolated_world, restored_world, args_after_call, backup_events,
    restore_events, readline_isolated.
  rewrite Hav. cbn [andb negb]. split_and!; try reflexivity.
  eexists. split_and!; reflexivity.
Qed.

Lemma missing_readline_acts_as_disabled_witness :
  fst (wrapper Samples.reconfigure [] []
         (mkState Samples.world_without_readline Samples.all_enabled []))
  = Ok (PyInt 3)
  ∧ world (snd (wrapper Samples.reconfigure [] []
                  (mkState Samples.world_without_readline Samples.all_enabled [])))
    = world (snd (wrapper Samples.reconfigure [] []
                    (mkState Samples.world_without_readline Samples.only_stdout []))).
Proof.
  pose proof (missing_readline_acts_as_disabled
                Samples.all_enabled Samples.only_stdout
                Samples.reconfigure [] []
                Samples.world_without_readline [] eq_refl eq_refl eq_refl) as H.
  cbv zeta in H. destruct H as (Hout & _ & Hworld & _).
  split; [exact Hout | exact Hworld].
Defined.

(** C10. Let the target end by installing a completer and an output stream
    of its own.  The call of the wrapper runs this target once, in the
    prepared world, and delivers its outcome; the world the target leaves
    holds the new objects, and the world after the call is that world with
    the restoring writes applied, which come after the call of the target.
    So the output stream after the call is the one from before the call
    when [stdout] is enabled, and the completer is the one from before the
    call when [readline] is enabled and the module imports: the restoring
    writes overwrite what the target installed.  Where an entity is
    disabled, what the target installed stays. *)
Theorem restoration_overwrites_target_mutations
    (kws : list (string * pyval)) (cfg : gmap string bool)
    (function : callable) (new_completer new_stdout : pyval)
    (args : list pyval) (kwargs : list (string * pyval))
    (w : World) (tr : list event) :
  init_decorator_args kws = Ok cfg →
  let readline_flag := enabled cfg "readline" in
  let stdout_flag := enabled cfg "stdout" in
  let target := then_reassign function new_completer new_stdout in
  let w1 := isolated_world readline_flag stdout_flag w in
  let w2 := snd (target args kwargs w1) in
  let run := wrapper target args kwargs (mkState w cfg tr) in
  let st' := snd run in
  fst run = fst (target args kwargs w1)
  ∧ fst run = fst (function args kwargs w1)
  ∧ sys_stdout w2 = new_stdout
  ∧ readline_completer w2 = new_completer
  ∧ world st' = restored_world readline_flag stdout_flag w w2
  ∧ sys___stdout__ (world st') = sys___stdout__ w2
  ∧ readline_importable (world st') = readline_importable w2
  ∧ trace st' = tr ++ backup_events readline_flag stdout_flag w
                   ++ [EvCall args kwargs]
                   ++ restore_events readline_flag stdout_flag w
  ∧ (cfg !! "stdout" = Some true →
       sys_stdout (world st') = sys_stdout w
       ∧ world st'
         = with_stdout (sys_stdout w)
             (if readline_isolated readline_flag w
              then with_completer (readline_completer w) w2 else w2)
       ∧ ∃ evs, restore_events readline_flag stdout_flag w
                = evs ++ [EvWriteStdout (sys_stdout w)])
  ∧ (cfg !! "readline" = Some true → readline_importable w = true →
       readline_completer (world st') = readline_completer w
       ∧ ∃ evs, restore_events readline_flag stdout_flag w
                = EvSetCompleter (readline_completer w) :: evs)
  ∧ (cfg !! "stdout" = Some false → sys_stdout (world st') = new_stdout)
  ∧ (cfg !! "readline" = Some false →
       readline_completer (world st') = new_completer).
Proof.
  intros Hcfg. cbv zeta.
  rewrite (wrapper_run_validated _ _ _ _ _ _ _ Hcfg). cbn [fst snd world trace].
  assert (Hnew : ∀ w1,
             sys_stdout (snd (then_reassign function new_completer new_stdout
                                args kwargs w1)) = new_stdout
             ∧ readline_completer
                 (snd (then_reassign function new_completer new_stdout
                         args kwargs w1)) = new_completer
             ∧ fst (then_reassign function new_completer new_stdout
                      args kwargs w1) = fst (function args kwargs w1)).
  { intros w1. unfold then_reassign. by destruct (function args kwargs w1). }
  split_and!; try done; try apply Hnew.
  - unfold restored_world.
    by destruct (readline_isolated _ w), (enabled cfg "stdout").
  - unfold restored_world.
    by destruct (readline_isolated _ w), (enabled cfg "stdout").
  - intros Hs. rewrite (enabled_lookup _ _ _ Hs). split_and!.
    + apply restored_world_stdout.
    + done.
    + unfold restore_events. by eexists.
  - intros Hr Hav. rewrite (enabled_lookup _ _ _ Hr). split.
    + by apply restored_world_completer.
    + unfold restore_events, readline_isolated. rewrite Hav. cbn [andb].
      by eexists.
  - intros Hs. rewrite (enabled_lookup _ _ _ Hs).
    rewrite restored_world_stdout_off. apply Hnew.
  - intros Hr. rewrite (enabled_lookup _ _ _ Hr).
    rewrite restored_world_completer_off by done. apply Hnew.
Qed.

Lemma restoration_overwrites_target_mutations_witness :
  sys_stdout
    (snd (then_reassign Samples.first_arg (PyObj 8) (PyObj 7) [PyNone] []
            (isolated_world true true Samples.world_with_readline)))
  = PyObj 7
  ∧ sys_stdout
      (world (snd (wrapper (then_reassign Samples.first_arg (PyObj 8) (PyObj 7))
                     [PyNone] []
                     (mkState Samples.world_with_readline Samples.all_enabled []))))
    = PyObj 1
  ∧ readline_completer
      (world (snd (wrapper (then_reassign Samples.first_arg (PyObj 8) (PyObj 7))
                     [PyNone] []
                     (mkState Samples.world_with_readline Samples.all_enabled []))))
    = PyObj 2.
Proof.
  pose proof (restoration_overwrites_target_mutations [] Samples.all_enabled
                Samples.first_arg (PyObj 8) (PyObj 7) [PyNone] []
                Samples.world_with_readline [] eq_refl) as H.
  cbv zeta in H.
  destruct H as (_ & _ & Htarget & _ & _ & _ & _ & _ & Hs & Hr & _).
  split; [exact Htarget|]. split.
  - apply Hs. reflexivity.
  - apply Hr; reflexivity.
Defined.

(** C2, as the code has it. When [readline] is enabled and the module does
    not import, the call raises nothing of its own (its outcome is the
    target's, run with the completer left alone) and the downgrade is
    written into the stored dict: its [readline] entry is false from then
    on.  In every other case the call leaves the stored dict as it was.
    The [stdout] entry is never changed. *)
Theorem readline_downgrade_is_stored
    (kws : list (string * pyval)) (cfg : gmap string bool)
    (function : callable) (args : list pyval) (kwargs : list (string * pyval))
    (w : World) (tr : list event) :
  init_decorator_args kws = Ok cfg →
  let run := wrapper function args kwargs (mkState w cfg tr) in
  (cfg !! "readline" = Some true → readline_importable w = false →
     fst run = fst (function args kwargs
                      (isolated_world false (enabled cfg "stdout") w))
     ∧ decorator_args (snd run) = <["readline" := false]> cfg)
  ∧ (cfg !! "readline" = Some false ∨ readline_importable w = true →
     decorator_args (snd run) = cfg)
  ∧ decorator_args (snd run) !! "stdout" = cfg !! "stdout".
Proof.
  intros Hcfg. cbv zeta.
  rewrite (wrapper_run_validated _ _ _ _ _ _ _ Hcfg).
  cbn [fst snd decorator_args]. unfold args_after_call. split_and!.
  - intros Hr Hav. rewrite (enabled_lookup _ _ _ Hr), Hav. cbn [andb negb].
    split; [|done].
    unfold isolated_world, readline_isolated. by rewrite Hav.
  - intros [Hr | Hav].
    + by rewrite (enabled_lookup _ _ _ Hr).
    + rewrite Hav. cbn [negb]. by rewrite andb_false_r.
  - destruct (_ && _); [|done]. by rewrite lookup_insert_ne.
Qed.

Lemma readline_downgrade_is_stored_witness :
  decorator_args
    (snd (wrapper Samples.first_arg [PyInt 1] []
            (mkState Samples.world_without_readline Samples.all_enabled [])))
  = <["readline" := false]> Samples.all_enabled
  ∧ decorator_args
      (snd (wrapper Samples.first_arg [PyInt 1] []
              (mkState Samples.world_with_readline Samples.all_enabled [])))
    = Samples.all_enabled.
Proof.
  split.
  - pose proof (readline_downgrade_is_stored [] Samples.all_enabled
                  Samples.first_arg [PyInt 1] []
                  Samples.world_without_readline [] eq_refl) as H.
    cbv zeta in H. destruct H as (Hdown & _ & _).
    apply Hdown; reflexivity.
  - pose proof (readline_downgrade_is_stored [] Samples.all_enabled
                  Samples.first_arg [PyInt 1] []
                  Samples.world_with_readline [] eq_refl) as H.
    cbv zeta in H. destruct H as (_ & Hkeep & _).
    apply Hkeep. right. reflexivity.
Defined.

(** One call without the module changes the stored dict, and a later call
    of the same wrapper, made when the module imports, no longer isolates
    the completer: the completer installed by the target survives it,
    while under the dict built at decoration time it would be restored. *)
Lemma readline_downgrade_counterexample :
  init_decorator_args [] = Ok Samples.all_enabled
  ∧ readline_importable Samples.world_without_readline = false
  ∧ decorator_args
      (snd (wrapper Samples.first_arg [PyInt 1] []
              (mkState Samples.world_without_readline Samples.all_enabled [])))
    ≠ Samples.all_enabled
  ∧ readline_completer
      (world (snd (wrapper Samples.reconfigure [] []
                     (mkState Samples.world_with_readline
                        (decorator_args
                           (snd (wrapper Samples.first_arg [PyInt 1] []
                                   (mkState Samples.world_without_readline
                                      Samples.all_enabled []))))
                        []))))
    = PyObj 8
  ∧ readline_completer
      (world (snd (wrapper Samples.reconfigure [] []
                     (mkState Samples.world_with_readline Samples.all_enabled []))))
    = PyObj 2.
Proof.
  split; [reflexivity|]. split; [reflexivity|]. split.
  - intros Heq.
    assert (Hl : decorator_args
                   (snd (wrapper Samples.first_arg [PyInt 1] []
                           (mkState Samples.world_without_readline
                              Samples.all_enabled []))) !! "readline"
                 = Samples.all_enabled !! "readline") by (by rewrite Heq).
    vm_compute in Hl. discriminate Hl.
  - split; reflexivity.
Qed.


(** * Further properties *)

(** ** The validator: acceptance, failures, keyword order *)

Section ValidatorCriteria.

Implicit Types (items kwargs : list (string * pyval)).
Implicit Types (arguments cfg : gmap string bool).

(** The loop returns only when every entry passed both tests. *)
Lemma fill_arguments_ok_inv items arguments arguments' :
  fill_arguments items arguments = Ok arguments' →
  forallb valid_entry items = true.
Proof.
  revert arguments. induction items as [|[key value] items IH]; intros arguments Hrun.
  - done.
  - simpl in Hrun. unfold valid_entry at 1. simpl.
    destruct (bool_decide (key ∈ IO_ENTITIES)); simpl in *; [|done].
    destruct value; simpl in *; try done.
    by apply IH in Hrun.
Qed.

(** With pairwise distinct keys, the filled dict holds each entry of the
    loop, and keeps the entries it had under the other keys. *)
Lemma fill_arguments_lookup items arguments arguments' :
  NoDup items.*1 →
  fill_arguments items arguments = Ok arguments' →
  ∀ key b, arguments' !! key = Some b ↔
           ((key, PyBool b) ∈ items
            ∨ ((key ∉ items.*1) ∧ arguments !! key = Some b)).
Proof.
  revert arguments. induction items as [|[k v] items IH]; intros arguments Hnd Hrun key b.
  - simpl in Hrun. injection Hrun as <-. split.
    + intros H. right. split; [apply not_elem_of_nil | done].
    + intros [H | [_ H]]; [by apply elem_of_nil in H | done].
  - simpl in Hnd. apply NoDup_cons in Hnd as [Hk Hnd].
    simpl in Hrun.
    destruct (bool_decide (k ∈ IO_ENTITIES)); simpl in Hrun; [|done].
    destruct v as [|b0| | | |]; simpl in Hrun; try done.
    rewrite (IH _ Hnd Hrun key b). simpl.
    rewrite elem_of_cons, not_elem_of_cons.
    destruct (decide (key = k)) as [->|Hne].
    + rewrite lookup_insert_eq. split.
      * intros [Hin | [_ [= ->]]]; [by left; right | by left; left].
      * intros [[[= ->] | Hin] | [[Hkk _] _]]; [| by left | done].
        right. by split.
    + rewrite lookup_insert_ne by done. split.
      * intros [Hin | [Hnot Hl]]; [by left; right | by right].
      * intros [[[= -> _] | Hin] | [[_ Hnot] Hl]]; [done | by left | by right].
Qed.

Lemma Forall_valid_entry items :
  forallb valid_entry items = true ↔
  Forall (fun item => item.1 ∈ IO_ENTITIES ∧ ∃ b, item.2 = PyBool b) items.
Proof.
  rewrite forallb_forall, Forall_forall. split.
  - intros H [k v] Hin. by apply valid_entry_spec, H, list_elem_of_In.
  - intros H [k v] Hin. by apply valid_entry_spec, (H (k, v)), list_elem_of_In.
Qed.

(** The exact condition under which a non-empty keyword dict is accepted,
    and the dict that is returned then. *)
Lemma init_decorator_args_ok_iff kwargs cfg :
  kwargs ≠ [] →
  well_formed_kwargs kwargs →
  init_decorator_args kwargs = Ok cfg ↔
  (Forall (fun item => item.1 ∈ IO_ENTITIES ∧ ∃ b, item.2 = PyBool b) kwargs
   ∧ (∀ entity, entity ∈ IO_ENTITIES → entity ∈ kwargs.*1)
   ∧ ∀ key b, cfg !! key = Some b ↔ (key, PyBool b) ∈ kwargs).
Proof.
  intros Hne Hwf. unfold init_decorator_args.
  destruct kwargs as [|item kwargs']; [done|].
  set (kwargs := item :: kwargs') in *. split.
  - destruct (fill_arguments kwargs ∅) as [arguments|e] eqn:Hrun; [|done].
    case_bool_decide as Hdom; [done|]. intros [= <-].
    pose proof (fill_arguments_ok_inv _ _ _ Hrun) as Hvalid.
    destruct (fill_arguments_valid kwargs ∅ Hvalid) as (a' & Hrun' & Hdom').
    rewrite Hrun in Hrun'. injection Hrun' as <-.
    split; [by apply Forall_valid_entry|]. split.
    + intros entity Hent.
      assert (Hin : entity ∈ dom arguments)
        by (rewrite Hdom; by apply elem_of_list_to_set).
      rewrite Hdom', dom_empty_L, union_empty_l_L in Hin.
      by apply elem_of_list_to_set in Hin.
    + intros key b. rewrite (fill_arguments_lookup _ _ _ Hwf Hrun key b).
      rewrite lookup_empty. split; [intros [H | [_ H]]; done | by left].
  - intros (Hvalid & Hcover & Hlook).
    apply Forall_valid_entry in Hvalid.
    destruct (fill_arguments_valid kwargs ∅ Hvalid) as (a' & Hrun & Hdom).
    rewrite Hrun.
    assert (Hdom_eq : dom a' = list_to_set IO_ENTITIES).
    { rewrite Hdom, dom_empty_L, union_empty_l_L. apply set_eq. intros key.
      rewrite !elem_of_list_to_set. split; [|by apply Hcover].
      intros ([k v] & -> & Hin)%list_elem_of_fmap.
      rewrite forallb_forall in Hvalid.
      by apply list_elem_of_In, Hvalid, valid_entry_spec in Hin as [? _]. }
    rewrite bool_decide_eq_false_2 by (by intros H; apply H).
    f_equal. apply map_eq. intros key. apply option_eq. intros b.
    rewrite Hlook, (fill_arguments_lookup _ _ _ Hwf Hrun key b), lookup_empty.
    split; [intros [H | [_ H]]; done | by left].
Qed.

End ValidatorCriteria.

(** X1. A non-empty keyword dict whose keys are recognised, whose values
    are booleans and which names both entities is accepted, and the
    configuration returned holds exactly the given entries: [key] is
    mapped to [b] if and only if [key=b] was passed. *)
Theorem explicit_configuration_accepted (kwargs : list (string * pyval)) :
  kwargs ≠ [] →
  well_formed_kwargs kwargs →
  Forall (fun item => item.1 ∈ IO_ENTITIES ∧ ∃ b, item.2 = PyBool b) kwargs →
  (∀ entity, entity ∈ IO_ENTITIES → entity ∈ kwargs.*1) →
  ∃ cfg, init_decorator_args kwargs = Ok cfg
         ∧ ∀ key b, cfg !! key = Some b ↔ (key, PyBool b) ∈ kwargs.
Proof.
  intros Hne Hwf Hvalid Hcover.
  pose proof (proj2 (Forall_valid_entry kwargs) Hvalid) as Hall.
  destruct (fill_arguments_valid kwargs ∅ Hall) as (cfg & Hrun & _).
  assert (Hlook : ∀ key b, cfg !! key = Some b ↔ (key, PyBool b) ∈ kwargs).
  { intros key b. rewrite (fill_arguments_lookup _ _ _ Hwf Hrun key b), lookup_empty.
    split; [intros [H | [_ H]]; done | by left]. }
  exists cfg. split; [|done].
  by apply init_decorator_args_ok_iff.
Qed.

Lemma explicit_configuration_accepted_witness :
  ∃ cfg, init_decorator_args [("stdout", PyBool false); ("readline", PyBool true)]
         = Ok cfg
         ∧ ∀ key b, cfg !! key = Some b ↔
                    (key, PyBool b)
                      ∈ [("stdout", PyBool false); ("readline", PyBool true)].
Proof.
  apply (explicit_configuration_accepted
           [("stdout", PyBool false); ("readline", PyBool true)]).
  - discriminate.
  - unfold well_formed_kwargs. compute_done.
  - constructor; [split; [compute_done | by exists false]|].
    constructor; [split; [compute_done | by exists true]|]. constructor.
  - intros entity Hent. apply list_elem_of_In in Hent. simpl in Hent.
    destruct Hent as [<- | [<- | []]]; simpl.
    + apply list_elem_of_further, list_elem_of_here.
    + apply list_elem_of_here.
Defined.

(** X2. Whatever the validator accepts is what was asked for: when a
    non-empty keyword dict is accepted, all its keys are recognised, all
    its values are booleans, both entities are named, and the returned
    configuration has no entry beyond the given ones. *)
Theorem accepted_configuration_sound
    (kwargs : list (string * pyval)) (cfg : gmap string bool) :
  kwargs ≠ [] →
  well_formed_kwargs kwargs →
  init_decorator_args kwargs = Ok cfg →
  Forall (fun item => item.1 ∈ IO_ENTITIES ∧ ∃ b, item.2 = PyBool b) kwargs
  ∧ (∀ entity, entity ∈ IO_ENTITIES → entity ∈ kwargs.*1)
  ∧ (∀ key b, cfg !! key = Some b ↔ (key, PyBool b) ∈ kwargs)
  ∧ length kwargs = 2.
Proof.
  intros Hne Hwf Hok.
  destruct (proj1 (init_decorator_args_ok_iff kwargs cfg Hne Hwf) Hok)
    as (Hvalid & Hcover & Hlook).
  split_and!; try done.
  assert (Hperm : kwargs.*1 ≡ₚ IO_ENTITIES).
  { apply NoDup_Permutation; [done | compute_done |].
    intros key. split; [|by apply Hcover].
    intros ([k v] & -> & Hin)%list_elem_of_fmap.
    rewrite Forall_forall in Hvalid. by destruct (Hvalid _ Hin). }
  apply Permutation_length in Hperm. by rewrite length_fmap in Hperm.
Qed.

Lemma accepted_configuration_sound_witness :
  Forall (fun item => item.1 ∈ IO_ENTITIES ∧ ∃ b, item.2 = PyBool b)
         [("stdout", PyBool false); ("readline", PyBool true)]
  ∧ (∀ entity, entity ∈ IO_ENTITIES →
               entity ∈ [("stdout", PyBool false); ("readline", PyBool true)].*1)
  ∧ (∀ key b, Samples.only_readline !! key = Some b ↔
              (key, PyBool b)
                ∈ [("stdout", PyBool false); ("readline", PyBool true)])
  ∧ length [("stdout", PyBool false); ("readline", PyBool true)] = 2.
Proof.
  apply (accepted_configuration_sound
           [("stdout", PyBool false); ("readline", PyBool true)]
           Samples.only_readline).
  - discriminate.
  - unfold well_formed_kwargs. compute_done.
  - reflexivity.
Defined.

(** X3. The validator fails in three ways only, and each failure names
    what is wrong with the dict it was given: an invalid-entity
    [TypeError] names an unrecognised key of the dict; a boolean-expected
    [TypeError] names an entry of the dict with a recognised key and a
    non-boolean value; the [ValueError] is raised only for a non-empty
    dict whose entries all pass the tests and which leaves an entity out. *)
Theorem validation_failures_classified
    (kwargs : list (string * pyval)) (e : exn) :
  init_decorator_args kwargs = Raise e →
  (∃ key value, ((key, value) ∈ kwargs) ∧ (key ∉ IO_ENTITIES)
                ∧ e = InvalidEntityError key)
  ∨ (∃ key value, ((key, value) ∈ kwargs) ∧ key ∈ IO_ENTITIES
                  ∧ isinstance_bool value = None
                  ∧ e = InvalidValueError key value)
  ∨ (e = IncompleteConfigurationError
     ∧ kwargs ≠ []
     ∧ Forall (fun item => item.1 ∈ IO_ENTITIES ∧ ∃ b, item.2 = PyBool b) kwargs
     ∧ ∃ entity, entity ∈ IO_ENTITIES ∧ entity ∉ kwargs.*1).
Proof.
  intros Hfail.
  destruct (first_offender_split kwargs)
    as [Hall | (pre & key & value & post & -> & Hpre & Hoff)].
  - right. right.
    destruct kwargs as [|item kwargs']; [done|].
    set (kwargs := item :: kwargs') in *.
    destruct (fill_arguments_valid kwargs ∅ Hall) as (a' & Hrun & Hdom).
    unfold init_decorator_args in Hfail. fold kwargs in Hfail.
    rewrite Hrun in Hfail. case_bool_decide as Hne; [|done].
    injection Hfail as <-. split; [done|]. split; [done|].
    split; [by apply Forall_valid_entry|].
    rewrite Hdom, dom_empty_L, union_empty_l_L in Hne.
    destruct (decide ("readline" ∈ kwargs.*1)) as [Hr|Hr];
      [|exists "readline"; split; [compute_done | done]].
    destruct (decide ("stdout" ∈ kwargs.*1)) as [Hs|Hs];
      [|exists "stdout"; split; [compute_done | done]].
    exfalso. apply Hne. apply set_eq. intros key.
    rewrite !elem_of_list_to_set. split.
    + intros ([k v] & -> & Hin)%list_elem_of_fmap.
      rewrite forallb_forall in Hall.
      by apply list_elem_of_In, Hall, valid_entry_spec in Hin as [? _].
    + intros Hin. apply list_elem_of_In in Hin. simpl in Hin.
      by destruct Hin as [<- | [<- | []]].
  - rewrite (init_decorator_args_first_offender _ _ _ _ Hpre Hoff) in Hfail.
    assert (Hin : (key, value) ∈ pre ++ (key, value) :: post).
    { apply elem_of_app. right. apply list_elem_of_here. }
    case_bool_decide as Hkey; injection Hfail as <-.
    + right. left. exists key, value. split_and!; try done.
      unfold valid_entry in Hoff. simpl in Hoff.
      rewrite bool_decide_eq_true_2 in Hoff by done. simpl in Hoff.
      apply bool_decide_eq_false in Hoff.
      destruct (isinstance_bool value); [|done]. exfalso. eauto.
    + left. by exists key, value.
Qed.

Lemma validation_failures_classified_witness :
  (∃ key value,
      ((key, value) ∈ [("readline", PyBool true); ("stdout", PyInt 1)])
      ∧ (key ∉ IO_ENTITIES)
      ∧ InvalidValueError "stdout" (PyInt 1) = InvalidEntityError key)
  ∨ (∃ key value,
        ((key, value) ∈ [("readline", PyBool true); ("stdout", PyInt 1)])
        ∧ key ∈ IO_ENTITIES
        ∧ isinstance_bool value = None
        ∧ InvalidValueError "stdout" (PyInt 1) = InvalidValueError key value)
  ∨ (InvalidValueError "stdout" (PyInt 1) = IncompleteConfigurationError
     ∧ [("readline", PyBool true); ("stdout", PyInt 1)] ≠ []
     ∧ Forall (fun item => item.1 ∈ IO_ENTITIES ∧ ∃ b, item.2 = PyBool b)
              [("readline", PyBool true); ("stdout", PyInt 1)]
     ∧ ∃ entity, entity ∈ IO_ENTITIES
                 ∧ entity ∉ [("readline", PyBool true); ("stdout", PyInt 1)].*1).
Proof.
  apply (validation_failures_classified
           [("readline", PyBool true); ("stdout", PyInt 1)]).
  reflexivity.
Defined.

(** X4. For keyword dicts, acceptance does not depend on the order of the
    keywords: two dicts with the same entries in different orders are both
    accepted with the same configuration, or both rejected (only which
    failure is reported can differ). *)
Theorem acceptance_independent_of_order
    (kwargs kwargs' : list (string * pyval)) (cfg : gmap string bool) :
  kwargs ≡ₚ kwargs' →
  well_formed_kwargs kwargs →
  init_decorator_args kwargs = Ok cfg ↔ init_decorator_args kwargs' = Ok cfg.
Proof.
  intros Hperm Hwf.
  assert (Hwf' : well_formed_kwargs kwargs').
  { unfold well_formed_kwargs in *. by rewrite <- Hperm. }
  destruct kwargs as [|item kwargs0].
  { apply Permutation_nil_l in Hperm. by subst. }
  destruct kwargs' as [|item' kwargs0'].
  { by apply Permutation_nil_r in Hperm. }
  rewrite (init_decorator_args_ok_iff _ cfg) by done.
  rewrite (init_decorator_args_ok_iff (item' :: kwargs0') cfg) by done.
  rewrite <- Hperm.
  by setoid_rewrite <- Hperm.
Qed.

Lemma acceptance_independent_of_order_witness :
  init_decorator_args [("readline", PyBool true); ("stdout", PyBool false)]
    = Ok Samples.only_readline
  ↔ init_decorator_args [("stdout", PyBool false); ("readline", PyBool true)]
    = Ok Samples.only_readline.
Proof.
  apply acceptance_independent_of_order.
  - apply perm_swap.
  - unfold well_formed_kwargs. compute_done.
Defined.

(** ** The wrapper: what the target sees, what is left alone *)

(** X5. The context the target runs in.  Under a validated configuration
    the target is called in a world where, when [stdout] is enabled,
    [sys.stdout] is the default stream [sys.__stdout__], and where, when
    [readline] is enabled and the module imports, the completer is the
    identity function; the default stream itself and the importability of
    the module are as before the call, and the override writes are the
    wrapper's last actions before the call. *)
Theorem target_runs_in_fresh_context
    (kws : list (string * pyval)) (cfg : gmap string bool)
    (function : callable) (args : list pyval) (kwargs : list (string * pyval))
    (w : World) (tr : list event) :
  init_decorator_args kws = Ok cfg →
  let w1 := isolated_world (enabled cfg "readline") (enabled cfg "stdout") w in
  let run := wrapper function args kwargs (mkState w cfg tr) in
  fst run = fst (function args kwargs w1)
  ∧ (cfg !! "stdout" = Some true →
       sys_stdout w1 = sys___stdout__ w
       ∧ ∃ evs evs', trace (snd run)
                     = evs ++ EvWriteStdout (sys___stdout__ w)
                           :: EvCall args kwargs :: evs')
  ∧ (cfg !! "readline" = Some true → readline_importable w = true →
       readline_completer w1 = PyIdentityLambda
       ∧ ∃ evs evs', trace (snd run)
                     = evs ++ [EvGetCompleter; EvSetCompleter PyIdentityLambda]
                           ++ evs'
                       ∧ count_events on_completer evs = count_events on_completer tr)
  ∧ sys___stdout__ w1 = sys___stdout__ w
  ∧ readline_importable w1 = readline_importable w.
Proof.
  intros Hcfg. cbv zeta.
  rewrite (wrapper_run_validated _ _ _ _ _ _ _ Hcfg). cbn [fst snd trace].
  split_and!.
  - done.
  - intros Hs. rewrite (enabled_lookup _ _ _ Hs). split.
    + unfold isolated_world. by destruct (readline_isolated _ w).
    + exists (tr ++ (if enabled cfg "readline"
                     then [EvImportReadline (readline_importable w)] else [])
                 ++ (if readline_isolated (enabled cfg "readline") w
                     then [EvGetCompleter; EvSetCompleter PyIdentityLambda]
                     else [])
                 ++ [EvReadStdout; EvReadDunderStdout]),
             (restore_events (enabled cfg "readline") true w).
      unfold backup_events. by rewrite <- !app_assoc.
  - intros Hr Hav. rewrite (enabled_lookup _ _ _ Hr). split.
    + unfold isolated_world, readline_isolated. rewrite Hav. simpl.
      by destruct (enabled cfg "stdout").
    + unfold backup_events, readline_isolated. rewrite Hav. cbn [andb].
      exists (tr ++ [EvImportReadline true]),
             ((if enabled cfg "stdout"
               then [EvReadStdout; EvReadDunderStdout;
                     EvWriteStdout (sys___stdout__ w)]
               else [])
              ++ [EvCall args kwargs]
              ++ restore_events true (enabled cfg "stdout") w).
      split.
      * by rewrite <- !app_assoc.
      * rewrite count_events_app. simpl. lia.
  - unfold isolated_world.
    by destruct (readline_isolated _ w), (enabled cfg "stdout").
  - unfold isolated_world.
    by destruct (readline_isolated _ w), (enabled cfg "stdout").
Qed.

Lemma target_runs_in_fresh_context_witness :
  fst (wrapper report_stdout [] []
         (mkState Samples.world_with_readline Samples.all_enabled []))
  = Ok (PyObj 0).
Proof.
  pose proof (target_runs_in_fresh_context [] Samples.all_enabled
                report_stdout [] [] Samples.world_with_readline [] eq_refl) as H.
  cbv zeta in H. destruct H as (Hout & Hs & _).
  rewrite Hout. unfold report_stdout. cbn [fst].
  destruct (Hs eq_refl) as [Hseen _]. rewrite Hseen. reflexivity.
Defined.

(** X6. When the target leaves the world it ran in as it found it, the
    call of the wrapper leaves no mark on the world: after the call every
    attribute, isolated or not, is what it was before the call. *)
Theorem untouched_world_is_preserved
    (kws : list (string * pyval)) (cfg : gmap string bool)
    (function : callable) (args : list pyval) (kwargs : list (string * pyval))
    (w : World) (tr : list event) :
  init_decorator_args kws = Ok cfg →
  snd (function args kwargs
         (isolated_world (enabled cfg "readline") (enabled cfg "stdout") w))
  = isolated_world (enabled cfg "readline") (enabled cfg "stdout") w →
  world (snd (wrapper function args kwargs (mkState w cfg tr))) = w.
Proof.
  intros Hcfg Hpure.
  rewrite (wrapper_run_validated _ _ _ _ _ _ _ Hcfg). cbn [snd world].
  rewrite Hpure. unfold restored_world, isolated_world.
  destruct w as [a c o d].
  by destruct (readline_isolated _ _), (enabled cfg "stdout").
Qed.

Lemma untouched_world_is_preserved_witness :
  world (snd (wrapper report_stdout [] []
                (mkState Samples.world_with_readline Samples.all_enabled [])))
  = Samples.world_with_readline.
Proof.
  apply (untouched_world_is_preserved [] Samples.all_enabled report_stdout).
  - reflexivity.
  - reflexivity.
Defined.

(** X7. The wrapper writes the two entities and nothing else: whatever
    the configuration, the default stream [sys.__stdout__] and the
    importability of the module after the call are those the target left,
    and with both entities disabled the whole world is the one the target
    left, the target having run in the world of before the call. *)
Theorem wrapper_writes_entities_only
    (kws : list (string * pyval)) (cfg : gmap string bool)
    (function : callable) (args : list pyval) (kwargs : list (string * pyval))
    (w : World) (tr : list event) :
  init_decorator_args kws = Ok cfg →
  let w1 := isolated_world (enabled cfg "readline") (enabled cfg "stdout") w in
  let w2 := snd (function args kwargs w1) in
  let st' := snd (wrapper function args kwargs (mkState w cfg tr)) in
  sys___stdout__ (world st') = sys___stdout__ w2
  ∧ readline_importable (world st') = readline_importable w2
  ∧ (cfg !! "readline" = Some false → cfg !! "stdout" = Some false →
       w1 = w ∧ world st' = w2
       ∧ st' = mkState w2 cfg (tr ++ [EvCall args kwargs])).
Proof.
  intros Hcfg. cbv zeta.
  rewrite (wrapper_run_validated _ _ _ _ _ _ _ Hcfg). cbn [snd world].
  split_and!.
  - unfold restored_world.
    by destruct (readline_isolated _ w), (enabled cfg "stdout").
  - unfold restored_world.
    by destruct (readline_isolated _ w), (enabled cfg "stdout").
  - intros Hr Hs.
    rewrite (enabled_lookup _ _ _ Hr), (enabled_lookup _ _ _ Hs).
    by split_and!.
Qed.

Lemma wrapper_writes_entities_only_witness :
  world (snd (wrapper Samples.reconfigure [] []
                (mkState Samples.world_with_readline
                   {[ "readline" := false; "stdout" := false ]} [])))
  = snd (Samples.reconfigure [] [] Samples.world_with_readline).
Proof.
  pose proof (wrapper_writes_entities_only (Samples.kw false false)
                {[ "readline" := false; "stdout" := false ]}
                Samples.reconfigure [] [] Samples.world_with_readline []
                eq_refl) as H.
  cbv zeta in H. destruct H as (_ & _ & Hoff).
  destruct (Hoff eq_refl eq_refl) as (_ & Hw & _). exact Hw.
Defined.

(** ** Stacked decorators and repeated calls *)

(** X8. Two decorators stacked on one function act on the world as one
    decorator that isolates an entity when either of the two does: the
    call has the same outcome and leaves the same world. *)
Theorem stacked_decorators_merge
    (kws_out kws_in : list (string * pyval)) (cfg_out cfg_in : gmap string bool)
    (function : callable) (args : list pyval) (kwargs : list (string * pyval))
    (w : World) (tr : list event) :
  init_decorator_args kws_out = Ok cfg_out →
  init_decorator_args kws_in = Ok cfg_in →
  let merged : gmap string bool :=
    {[ "readline" := enabled cfg_out "readline" || enabled cfg_in "readline";
       "stdout" := enabled cfg_out "stdout" || enabled cfg_in "stdout" ]} in
  let stacked :=
    wrapper (wrapped function cfg_in) args kwargs (mkState w cfg_out tr) in
  let single := wrapper function args kwargs (mkState w merged tr) in
  fst stacked = fst single ∧ world (snd stacked) = world (snd single).
Proof.
  intros Hout Hin. cbv zeta.
  rewrite (wrapper_run_validated _ _ _ _ _ _ _ Hout).
  rewrite (wrapper_run _ _ _ _
             (enabled cfg_out "readline" || enabled cfg_in "readline")
             (enabled cfg_out "stdout" || enabled cfg_in "stdout"));
    [|by rewrite lookup_insert_eq
      |by rewrite lookup_insert_ne, lookup_singleton_eq].
  cbn [fst snd world]. unfold wrapped.
  rewrite (wrapper_run_validated _ _ _ _ _ _ _ Hin). cbn [fst snd world].
  destruct w as [a c o d].
  destruct (enabled cfg_out "readline"), (enabled cfg_in "readline"),
    (enabled cfg_out "stdout"), (enabled cfg_in "stdout"), a;
    cbn; by destruct (function args kwargs _).
Qed.

Lemma stacked_decorators_merge_witness :
  fst (wrapper (wrapped Samples.reconfigure Samples.only_stdout) [] []
         (mkState Samples.world_with_readline Samples.only_readline []))
  = fst (wrapper Samples.reconfigure [] []
           (mkState Samples.world_with_readline Samples.all_enabled []))
  ∧ world (snd (wrapper (wrapped Samples.reconfigure Samples.only_stdout) [] []
                  (mkState Samples.world_with_readline Samples.only_readline [])))
    = world (snd (wrapper Samples.reconfigure [] []
                    (mkState Samples.world_with_readline Samples.all_enabled []))).
Proof.
  exact (stacked_decorators_merge (Samples.kw true false) (Samples.kw false true)
           Samples.only_readline Samples.only_stdout
           Samples.reconfigure [] [] Samples.world_with_readline []
           eq_refl eq_refl).
Defined.

(** One call, on a dict of the validated shape. *)
Lemma dict_after_one_call (r s : bool) (c : invocation) :
  decorator_args
    (snd (wrapper (inv_function c) (inv_args c) (inv_kwargs c)
            (mkState (inv_world c) {[ "readline" := r; "stdout" := s ]} [])))
  = {[ "readline" := r && readline_importable (inv_world c); "stdout" := s ]}.
Proof.
  rewrite (wrapper_run _ _ _ _ r s);
    [|by rewrite lookup_insert_eq
      |by rewrite lookup_insert_ne, lookup_singleton_eq].
  cbn [snd decorator_args]. unfold args_after_call.
  destruct r, (readline_importable (inv_world c)); cbn [andb negb]; try done.
Qed.

(** X9. The dict of the closure over any sequence of calls: its [stdout]
    entry never changes, and its [readline] entry is true exactly when it
    was true at decoration time and the module imported at the start of
    every call so far; once a call has found the module missing, the entry
    stays false, whatever the later worlds are. *)
Theorem dict_after_calls
    (kws : list (string * pyval)) (cfg : gmap string bool)
    (calls : list invocation) :
  init_decorator_args kws = Ok cfg →
  dict_after cfg calls
  = {[ "readline" := enabled cfg "readline"
                     && forallb (fun c => readline_importable (inv_world c)) calls;
       "stdout" := enabled cfg "stdout" ]}.
Proof.
  intros Hcfg. rewrite (validated_configuration_shape _ _ Hcfg) at 1.
  generalize (enabled cfg "readline") (enabled cfg "stdout"). clear.
  unfold dict_after.
  induction calls as [|c calls IH]; intros r s.
  - simpl. by rewrite andb_true_r.
  - simpl. rewrite dict_after_one_call, IH. by rewrite andb_assoc.
Qed.

Lemma dict_after_calls_witness :
  dict_after Samples.all_enabled
    [mkInvocation Samples.first_arg [PyInt 1] [] Samples.world_with_readline;
     mkInvocation Samples.reconfigure [] [] Samples.world_without_readline;
     mkInvocation Samples.first_arg [PyInt 2] [] Samples.world_with_readline]
  = {[ "readline" := false; "stdout" := true ]}.
Proof.
  exact (dict_after_calls [] Samples.all_enabled
           [mkInvocation Samples.first_arg [PyInt 1] [] Samples.world_with_readline;
            mkInvocation Samples.reconfigure [] [] Samples.world_without_readline;
            mkInvocation Samples.first_arg [PyInt 2] [] Samples.world_with_readline]
           eq_refl).
Defined.
